(** * create_docx_template.py: the DOCX template generator

    A shallow embedding of [scripts/create_docx_template.py] and the
    properties of the document it writes, of what it prints and of how the
    process ends.

    The script is a straight line of python-docx calls on one [Document]
    object, wrapped in a [try] with two handlers.  The embedding keeps that
    shape: the calls are commands of a small state-and-exception monad [Py],
    the [Document] is an object in the state that paragraph and run handles
    point into, and everything the process does to the outside (lines on
    standard output, the file written by [doc.save], the traceback of an
    exception nobody caught) is appended to a trace. *)

From Stdlib Require Import ZArith QArith List String Lia.
From stdpp Require Import base list strings pretty.
Import ListNotations.

Local Open Scope Z_scope.
Local Open Scope string_scope.
Local Open Scope list_scope.

(** ** Lengths ([docx.shared])

    python-docx keeps every length as an integer number of English Metric
    Units.  [Inches(x)] is [int(x * 914400)] and [Pt(x)] is
    [int(x * 12700)]; [int] truncates towards zero, which is [Z.quot]. *)

Module Shared.

Definition EMUS_PER_INCH : Z := 914400.
Definition EMUS_PER_PT : Z := 12700.

Definition int_of_Q (x : Q) : Z := Z.quot (Qnum x) (Zpos (Qden x)).

Definition Inches (inches : Q) : Z :=
  int_of_Q (Qmult inches (inject_Z EMUS_PER_INCH)).

Definition Pt (points : Q) : Z :=
  int_of_Q (Qmult points (inject_Z EMUS_PER_PT)).

End Shared.
Export Shared.

(** ** The document object model *)

(** [docx.enum.text.WD_ALIGN_PARAGRAPH] *)
Inductive WD_ALIGN_PARAGRAPH :=
  | LEFT | CENTER | RIGHT | JUSTIFY | DISTRIBUTE.

(** A run: its text and [run.font.size] ([None] when the run inherits it). *)
Record Run := mkRun {
  run_text : string;
  font_size : option Z
}.

(** A paragraph: [paragraph.alignment] ([None] when inherited) and its runs. *)
Record Paragraph := mkParagraph {
  alignment : option WD_ALIGN_PARAGRAPH;
  runs : list Run
}.

(** A section: the four margins the script assigns, and the page size it
    leaves alone. *)
Record DocSection := mkSection {
  top_margin : option Z;
  bottom_margin : option Z;
  left_margin : option Z;
  right_margin : option Z;
  page_width : option Z;
  page_height : option Z
}.

Record Document := mkDocument {
  sections : list DocSection;
  paragraphs : list Paragraph
}.

(** [paragraph.text]: the texts of the runs, concatenated. *)
Definition paragraph_text (p : Paragraph) : string :=
  String.concat "" (map run_text (runs p)).

(** ** Exceptions

    The part of Python's built-in hierarchy the two [except] clauses can
    tell apart.  [SystemExit] comes with the exit code it carries. *)

Inductive exn_class :=
  | BaseException
  | Exception
  | KeyboardInterrupt
  | ImportError
  | ModuleNotFoundError
  | OSError
  | PermissionError
  | FileNotFoundError
  | ValueError
  | UnicodeError
  | UnicodeEncodeError
  | MemoryError
  | NameError
  | SystemExit (code : Z).

(** The direct base class. *)
Definition base (c : exn_class) : option exn_class :=
  match c with
  | BaseException => None
  | Exception => Some BaseException
  | KeyboardInterrupt => Some BaseException
  | ImportError => Some Exception
  | ModuleNotFoundError => Some ImportError
  | OSError => Some Exception
  | PermissionError => Some OSError
  | FileNotFoundError => Some OSError
  | ValueError => Some Exception
  | UnicodeError => Some ValueError
  | UnicodeEncodeError => Some UnicodeError
  | MemoryError => Some Exception
  | NameError => Some Exception
  | SystemExit _ => Some BaseException
  end.

Definition exn_class_eqb (c d : exn_class) : bool :=
  match c, d with
  | BaseException, BaseException | Exception, Exception
  | KeyboardInterrupt, KeyboardInterrupt | ImportError, ImportError
  | ModuleNotFoundError, ModuleNotFoundError | OSError, OSError
  | PermissionError, PermissionError | FileNotFoundError, FileNotFoundError
  | ValueError, ValueError | UnicodeError, UnicodeError
  | UnicodeEncodeError, UnicodeEncodeError | MemoryError, MemoryError
  | NameError, NameError | SystemExit _, SystemExit _ => true
  | _, _ => false
  end.

(** [issubclass c d], walking up the chain of bases (no chain above is
    longer than five classes). *)
Fixpoint issubclass_upto (n : nat) (c d : exn_class) : bool :=
  exn_class_eqb c d ||
  match n with
  | O => false
  | S n' => match base c with
            | Some b => issubclass_upto n' b d
            | None => false
            end
  end.

Definition issubclass : exn_class -> exn_class -> bool := issubclass_upto 5.

(** A raised exception: its class and [str(e)]. *)
Record exn := mkExn {
  exn_cls : exn_class;
  exn_str : string
}.

Definition isinstance (e : exn) (c : exn_class) : bool :=
  issubclass (exn_cls e) c.

(** ** The process state and its trace *)

(** What [doc.save] leaves at a path: the whole package, or a file that was
    opened for writing and not finished. *)
Inductive file :=
  | Docx (d : Document)
  | Truncated.

Inductive event :=
  | Call (f : string)
  | Print (line : string)
  | Write (path : string) (content : file)
  | Traceback (e : exn).

Record state := mkState {
  doc : Document;
  trace : list event
}.

Definition set_doc (d : Document) (s : state) : state :=
  mkState d (trace s).

Definition emit (ev : event) (s : state) : state :=
  mkState (doc s) (trace s ++ [ev]).

(** ** Reading a trace *)

(** The lines printed, the files written and the number of function
    entries, in the order they happened. *)
Definition printed (t : list event) : list string :=
  omap (fun ev => match ev with Print l => Some l | _ => None end) t.

Definition written (t : list event) : list (string * file) :=
  omap (fun ev => match ev with Write p c => Some (p, c) | _ => None end) t.

Definition is_call (ev : event) : bool :=
  match ev with Call _ => true | _ => false end.

Definition calls (t : list event) : nat :=
  length (List.filter is_call t).

(** An event that only tells the user something: a printed line or a
    traceback. *)
Definition is_message (ev : event) : bool :=
  match ev with
  | Print _ | Traceback _ => true
  | Call _ | Write _ _ => false
  end.

(** ** The monad of Python commands *)

Inductive result (A : Type) :=
  | Ok (a : A)
  | Raise (e : exn).
Arguments Ok {A} a.
Arguments Raise {A} e.

Definition Py (A : Type) : Type := state -> result A * state.

Definition ret {A} (a : A) : Py A := fun s => (Ok a, s).

Definition raise {A} (e : exn) : Py A := fun s => (Raise e, s).

Definition bind {A B} (c : Py A) (k : A -> Py B) : Py B :=
  fun s =>
    match c s with
    | (Ok a, s') => k a s'
    | (Raise e, s') => (Raise e, s')
    end.

Notation "x <- c ;; k" := (bind c (fun x => k))
  (at level 100, c at next level, right associativity).
Notation "c ;;; k" := (bind c (fun _ => k))
  (at level 100, right associativity).

(** [for x in xs: body] *)
Fixpoint for_each {A} (xs : list A) (body : A -> Py unit) : Py unit :=
  match xs with
  | [] => ret tt
  | x :: xs' => body x ;;; for_each xs' body
  end.

(** ** The environment of one run

    Everything the script does not decide itself: whether [import docx]
    finds the package, the document [Document()] opens when it is given no
    file (the library's built-in blank template), which of the calls raise,
    and whether a [doc.save] that raises has already opened its file.

    A call is named by the line of the script it stands on and, inside the
    [for] loop, by the index of the section of the iteration.  Line 66,
    past the end of the file, names the flush of standard output that the
    interpreter does when it finalises. *)

Record env := mkEnv {
  docx_installed : bool;
  blank_document : Document;
  fault : nat -> nat -> option exn;
  save_truncates : bool
}.

(** ** python-docx, as far as the script calls it

    Paragraphs, runs and sections are handed out as handles into the
    [Document] of the state, as the library's proxy objects are: assigning
    through a handle changes the document. *)

Section Library.

Variable E : env.

(** A call at [line] (iteration [i]): the exception the environment
    injects there, or the call's own effect. *)
Definition at_line {A} (line i : nat) (c : Py A) : Py A :=
  fun s =>
    match fault E line i with
    | Some e => (Raise e, s)
    | None => c s
    end.

Definition modify_doc (f : Document -> Document) : Py unit :=
  fun s => (Ok tt, set_doc (f (doc s)) s).

(** [Document()] *)
Definition new_Document (line : nat) : Py unit :=
  at_line line 0 (modify_doc (fun _ => blank_document E)).

(** [doc.sections]: one handle per section, in document order. *)
Definition doc_sections (line : nat) : Py (list nat) :=
  at_line line 0 (fun s => (Ok (seq 0 (length (sections (doc s)))), s)).

Definition alter_section (f : DocSection -> DocSection) (i : nat)
    (d : Document) : Document :=
  mkDocument (alter f i (sections d)) (paragraphs d).

Definition with_top (v : Z) (x : DocSection) : DocSection :=
  mkSection (Some v) (bottom_margin x) (left_margin x) (right_margin x)
            (page_width x) (page_height x).
Definition with_bottom (v : Z) (x : DocSection) : DocSection :=
  mkSection (top_margin x) (Some v) (left_margin x) (right_margin x)
            (page_width x) (page_height x).
Definition with_left (v : Z) (x : DocSection) : DocSection :=
  mkSection (top_margin x) (bottom_margin x) (Some v) (right_margin x)
            (page_width x) (page_height x).
Definition with_right (v : Z) (x : DocSection) : DocSection :=
  mkSection (top_margin x) (bottom_margin x) (left_margin x) (Some v)
            (page_width x) (page_height x).

(** [section.top_margin = v] and its three siblings *)
Definition set_top_margin (line section : nat) (v : Z) : Py unit :=
  at_line line section (modify_doc (alter_section (with_top v) section)).
Definition set_bottom_margin (line section : nat) (v : Z) : Py unit :=
  at_line line section (modify_doc (alter_section (with_bottom v) section)).
Definition set_left_margin (line section : nat) (v : Z) : Py unit :=
  at_line line section (modify_doc (alter_section (with_left v) section)).
Definition set_right_margin (line section : nat) (v : Z) : Py unit :=
  at_line line section (modify_doc (alter_section (with_right v) section)).

(** [doc.add_paragraph()]: a new empty paragraph at the end of the body;
    the handle is its index. *)
Definition add_paragraph (line : nat) : Py nat :=
  at_line line 0 (fun s =>
    let d := doc s in
    (Ok (length (paragraphs d)),
     set_doc (mkDocument (sections d) (paragraphs d ++ [mkParagraph None []])) s)).

Definition alter_paragraph (f : Paragraph -> Paragraph) (p : nat)
    (d : Document) : Document :=
  mkDocument (sections d) (alter f p (paragraphs d)).

(** [p.alignment = a] *)
Definition set_alignment (line p : nat) (a : WD_ALIGN_PARAGRAPH) : Py unit :=
  at_line line 0
    (modify_doc (alter_paragraph (fun x => mkParagraph (Some a) (runs x)) p)).

(** [p.add_run(text)]: a new run at the end of the paragraph; the handle is
    the paragraph's handle with the index of the run. *)
Definition add_run (line p : nat) (text : string) : Py (nat * nat) :=
  at_line line 0 (fun s =>
    let d := doc s in
    let n := match paragraphs d !! p with
             | Some x => length (runs x)
             | None => O
             end in
    (Ok (p, n),
     set_doc (alter_paragraph
                (fun x => mkParagraph (alignment x) (runs x ++ [mkRun text None]))
                p d) s)).

(** [run.font.size = v] *)
Definition set_font_size (line : nat) (r : nat * nat) (v : Z) : Py unit :=
  at_line line 0
    (modify_doc
       (alter_paragraph
          (fun x => mkParagraph (alignment x)
                      (alter (fun y => mkRun (run_text y) (Some v)) (snd r) (runs x)))
          (fst r))).

(** [doc.save(path)]: writes the package; when it raises, the file may
    already have been opened and left unfinished. *)
Definition save (line : nat) (path : string) : Py unit :=
  fun s =>
    match fault E line 0 with
    | Some e =>
        (Raise e, if save_truncates E then emit (Write path Truncated) s else s)
    | None => (Ok tt, emit (Write path (Docx (doc s))) s)
    end.

(** [print(line)] *)
Definition print (line : nat) (text : string) : Py unit :=
  at_line line 0 (fun s => (Ok tt, emit (Print text) s)).

(** Entering a function of the script. *)
Definition enter (f : string) : Py unit :=
  fun s => (Ok tt, emit (Call f) s).

(** ** The script *)

(** Lines 17 to 54. *)
Definition create_template : Py unit :=
  enter "create_template" ;;;
  new_Document 19 ;;;
  sections <- doc_sections 22 ;;
  for_each sections (fun section =>
    set_top_margin 24 section (Inches 0.5) ;;;
    set_bottom_margin 25 section (Inches 0.5) ;;;
    set_left_margin 26 section (Inches 0.5) ;;;
    set_right_margin 27 section (Inches 0.5)) ;;;
  p <- add_paragraph 30 ;;
  set_alignment 31 p CENTER ;;;
  run <- add_run 35 p "{% for page in pages %}" ;;
  set_font_size 36 run (Pt 1) ;;;
  p2 <- add_paragraph 40 ;;
  set_alignment 41 p2 CENTER ;;;
  run2 <- add_run 42 p2 "{{%img}}" ;;
  set_font_size 43 run2 (Pt 1) ;;;
  p3 <- add_paragraph 46 ;;
  run3 <- add_run 47 p3 "{% endfor %}" ;;
  set_font_size 48 run3 (Pt 1) ;;;
  let output_path := "../assets/docx/document_template.docx" in
  save 52 output_path ;;;
  print 53 ("✓ Template created successfully at: " ++ output_path) ;;;
  print 54 "  This template can now be used by the Flutter app to generate DOCX files.".

(** Lines 13 to 15, at module level: the three imports from [docx]. *)
Definition imports : Py unit :=
  if docx_installed E then ret tt
  else raise (mkExn ModuleNotFoundError "No module named 'docx'").

(** [exit(code)]: raises [SystemExit(code)].  [exit] is a name the [site]
    module installs; where it is missing the call raises [NameError], which
    the environment injects like any other failure. *)
Definition exit (line : nat) (code : Z) : Py unit :=
  at_line line 0 (raise (mkExn (SystemExit code) (pretty code))).

(** How the process ends: by running off the end of the script, by
    [exit(code)], on an exception that reached the top level, or with
    standard output that could not be flushed. *)
Inductive termination :=
  | Finished
  | Exited (code : Z)
  | Unhandled (e : exn)
  | Unflushed (e : exn).

(** The interpreter's last word on an exception no handler took: the
    traceback. *)
Definition unhandled (e : exn) (s : state) : termination * state :=
  (Unhandled e, emit (Traceback e) s).

(** An exception that leaves the script: [SystemExit] ends the process
    silently with its code, any other is reported. *)
Definition toplevel (e : exn) (s : state) : termination * state :=
  match exn_cls e with
  | SystemExit code => (Exited code, s)
  | _ => unhandled e s
  end.

(** Lines 59 to 65: the two handlers, tried in order; an exception none of
    them names goes on. *)
Definition handlers (e : exn) : Py unit :=
  if isinstance e ImportError then
    print 60 "Error: python-docx is not installed." ;;;
    print 61 "Install it with: pip install python-docx" ;;;
    exit 62 1
  else if isinstance e Exception then
    print 64 ("Error creating template: " ++ exn_str e) ;;;
    exit 65 1
  else raise e.

(** Lines 56 to 65: the [try] around [create_template()].  What a handler
    raises (its [exit], or a [print] of its own that fails) is not tried
    against the other handler. *)
Definition main : state -> termination * state :=
  fun s =>
    match create_template s with
    | (Ok _, s1) => (Finished, s1)
    | (Raise e, s1) =>
        match handlers e s1 with
        | (Ok _, s2) => (Finished, s2)
        | (Raise e', s2) => toplevel e' s2
        end
    end.

(** Past the last line the interpreter finalises and flushes what [print]
    has left in the buffer of standard output; the environment names that
    flush line 66.  When it fails the interpreter reports the exception on
    standard error and the exit status is 120, whatever the script had
    asked for.  A run that printed nothing has nothing to flush. *)
Definition finalize (s0 : state) (r : termination * state)
    : termination * state :=
  match fault E 66 0 with
  | Some e =>
      if (length (printed (trace s0)) <? length (printed (trace (snd r))))%nat
      then (Unflushed e, emit (Traceback e) (snd r))
      else r
  | None => r
  end.

(** The whole file, run as [__main__]. *)
Definition script : state -> termination * state :=
  fun s =>
    finalize s
      match imports s with
      | (Ok _, s0) => main s0
      | (Raise e, s0) => toplevel e s0
      end.

End Library.

(** The exit status of the process: 0 at the end of the script, the
    argument of [exit], 1 after a traceback (an interrupt ends the process
    through its signal, which a POSIX shell reports as 130), and 120 when
    standard output could not be flushed. *)
Definition exit_status (t : termination) : Z :=
  match t with
  | Finished => 0
  | Exited code => code
  | Unhandled e => if isinstance e KeyboardInterrupt then 130 else 1
  | Unflushed _ => 120
  end.

(** ** What a finished run leaves behind *)

(** A section after the four assignments of the loop body. *)
Definition narrow (v : Z) (x : DocSection) : DocSection :=
  with_right v (with_left v (with_bottom v (with_top v x))).

(** A paragraph holding one run of [text] at size [v]. *)
Definition marker (a : option WD_ALIGN_PARAGRAPH) (text : string) (v : Z)
    : Paragraph :=
  mkParagraph a [mkRun text (Some v)].

Definition for_marker : string := "{% for page in pages %}".
Definition img_marker : string := "{{%img}}".
Definition endfor_marker : string := "{% endfor %}".
Definition output_path : string := "../assets/docx/document_template.docx".

(** The document a complete run has built from the blank one. *)
Definition rendered (b : Document) : Document :=
  mkDocument
    (narrow (Inches 0.5) <$> sections b)
    (paragraphs b ++
       [marker (Some CENTER) for_marker (Pt 1);
        marker (Some CENTER) img_marker (Pt 1);
        marker None endfor_marker (Pt 1)]).

(** ** Predicates on commands and the concrete runs used below *)

Definition success_line : string :=
  "✓ Template created successfully at: ../assets/docx/document_template.docx".
Definition usage_line : string :=
  "  This template can now be used by the Flutter app to generate DOCX files.".

(** A command that returns from every state. *)
Definition returns {A} (c : Py A) : Prop :=
  forall s, exists a s', c s = (Ok a, s').

(** A command that enters no function, whether it returns or raises. *)
Definition enters_nothing {A} (c : Py A) : Prop :=
  forall s, calls (trace (snd (c s))) = calls (trace s).

(** A blank document of one US Letter section with margins of 1 and 1.25
    inch and an empty body. *)
Definition letter_blank : Document :=
  mkDocument
    [mkSection (Some 914400) (Some 914400) (Some 1143000) (Some 1143000)
               (Some 7772400) (Some 10058400)]
    [].

(** A process that has not done anything yet. *)
Definition fresh : state := mkState (mkDocument [] []) [].

(** python-docx is installed and no call raises. *)
Definition calm : env := mkEnv true letter_blank (fun _ _ => None) false.

(** python-docx is not installed. *)
Definition no_docx : env := mkEnv false letter_blank (fun _ _ => None) false.

Definition permission_denied : exn :=
  mkExn PermissionError
    "[Errno 13] Permission denied: '../assets/docx/document_template.docx'".

(** The output directory cannot be written: [doc.save] at line 52 raises
    before it has created the file. *)
Definition unwritable : env :=
  mkEnv true letter_blank
    (fun line _ => if Nat.eqb line 52 then Some permission_denied else None)
    false.

Definition interrupt : exn := mkExn KeyboardInterrupt "".

(** The user interrupts the process while [doc.save] at line 52 is
    writing. *)
Definition interrupted : env :=
  mkEnv true letter_blank
    (fun line _ => if Nat.eqb line 52 then Some interrupt else None)
    true.

(** A command that, returning or raising, only adds events to the trace,
    writes no file but at [output_path], and writes at most [n] times. *)
Definition appends {A} (n : nat) (c : Py A) : Prop :=
  forall s, exists evs,
    trace (snd (c s)) = trace s ++ evs /\
    Forall (fun pc => fst pc = output_path) (written evs) /\
    (length (written evs) <= n)%nat.

(** A library that python-docx needs cannot be loaded when [Document()]
    first uses it. *)
Definition broken_lxml : exn :=
  mkExn ImportError "DLL load failed while importing etree".

Definition half_installed : env :=
  mkEnv true letter_blank
    (fun line _ => if Nat.eqb line 19 then Some broken_lxml else None)
    false.

(** The console cannot encode the check mark of the success line. *)
Definition cannot_encode : exn :=
  mkExn UnicodeEncodeError
    "'charmap' codec can't encode character '\u2713' in position 0: character maps to <undefined>".

Definition narrow_console : env :=
  mkEnv true letter_blank
    (fun line _ => if Nat.eqb line 53 then Some cannot_encode else None)
    false.

(** The disk fills up while [doc.save] is writing. *)
Definition no_space : exn :=
  mkExn OSError "[Errno 28] No space left on device".

Definition disk_full : env :=
  mkEnv true letter_blank
    (fun line _ => if Nat.eqb line 52 then Some no_space else None)
    true.

(** A blank document that already has a paragraph in its body. *)
Definition letterhead : Document :=
  mkDocument (sections letter_blank)
    [mkParagraph (Some RIGHT) [mkRun "ACME Scanning" (Some 152400)]].

Definition with_letterhead : env :=
  mkEnv true letterhead (fun _ _ => None) false.

(** Standard output goes to a device that is full and is buffered: every
    [print] returns, and the flush at the end fails. *)
Definition full_stdout : env :=
  mkEnv true letter_blank
    (fun line _ => if Nat.eqb line 66 then Some no_space else None)
    false.

(** The same device, and an output directory that cannot be written. *)
Definition unwritable_full_stdout : env :=
  mkEnv true letter_blank
    (fun line _ =>
       if Nat.eqb line 52 then Some permission_denied
       else if Nat.eqb line 66 then Some no_space else None)
    false.

(** The same device, with standard output unbuffered: every [print]
    fails where it stands, those of the handlers too. *)
Definition unbuffered_full_stdout : env :=
  mkEnv true letter_blank
    (fun line _ =>
       if Nat.eqb line 53 || Nat.eqb line 54 || Nat.eqb line 60
          || Nat.eqb line 61 || Nat.eqb line 64
       then Some no_space else None)
    false.

(** Another installation with the same blank document, where a failing
    save would leave an unfinished file. *)
Definition slow_disk : env := mkEnv true letter_blank (fun _ _ => None) true.

(** A process that already holds a document and has printed a line. *)
Definition busy : state :=
  mkState (mkDocument [] [mkParagraph (Some LEFT) [mkRun "draft" None]])
          [Print "starting"].

(** * Proofs *)

(** ** Lists updated through a handle *)

Lemma alter_last {A} (f : A -> A) (l : list A) (x : A) :
  alter f (length l) (l ++ [x]) = l ++ [f x].
Proof.
  induction l as [|y l IH]; simpl; [reflexivity|].
  f_equal. exact IH.
Qed.

Lemma lookup_last {A} (l : list A) (x : A) :
  (l ++ [x]) !! length l = Some x.
Proof.
  induction l as [|y l IH]; simpl; [reflexivity | exact IH].
Qed.

(** Altering every index in turn is a map. *)
Lemma alter_each_from {A} (f : A -> A) (m k : nat) (l : list A) :
  (k + m = length l)%nat ->
  foldl (fun acc i => alter f i acc) l (seq k m) = take k l ++ (f <$> drop k l).
Proof.
  revert k l. induction m as [|m IH]; intros k l Hlen; simpl.
  - rewrite take_ge, drop_ge by lia. simpl. now rewrite app_nil_r.
  - destruct (lookup_lt_is_Some_2 l k) as [x Hx]; [lia|].
    rewrite IH by (rewrite length_alter; lia).
    rewrite (take_S_r (alter f k l) k (f x))
      by (rewrite list_lookup_alter_eq, Hx; reflexivity).
    rewrite take_alter_ge by lia.
    rewrite drop_alter_lt by lia.
    rewrite (drop_S l x k Hx). simpl.
    now rewrite <- app_assoc.
Qed.

Lemma alter_each {A} (f : A -> A) (l : list A) :
  foldl (fun acc i => alter f i acc) l (seq 0 (length l)) = f <$> l.
Proof.
  rewrite alter_each_from by lia. now rewrite take_0, drop_0.
Qed.

(** The four assignments of the loop body, seen as one update. *)
Lemma alter_narrow v i (l : list DocSection) :
  alter (with_right v) i
    (alter (with_left v) i (alter (with_bottom v) i (alter (with_top v) i l)))
  = alter (narrow v) i l.
Proof.
  revert i. induction l as [|x l IH]; intros [|i]; simpl; try reflexivity.
  f_equal. apply IH.
Qed.

(** ** Commands that return *)

Section Returns.

Variable E : env.

Lemma bind_ok_inv {A B} (c : Py A) (k : A -> Py B) s b s' :
  bind c k s = (Ok b, s') ->
  exists a s1, c s = (Ok a, s1) /\ k a s1 = (Ok b, s').
Proof.
  unfold bind. destruct (c s) as [[a|e] s1]; intros H.
  - exists a, s1. split; [reflexivity | exact H].
  - discriminate H.
Qed.

Lemma at_line_ok_inv {A} line i (c : Py A) s a s' :
  at_line E line i c s = (Ok a, s') ->
  fault E line i = None /\ c s = (Ok a, s').
Proof.
  unfold at_line. destruct (fault E line i); intros H.
  - discriminate H.
  - split; [reflexivity | exact H].
Qed.

Lemma modify_at_ok line i f s a s' :
  at_line E line i (modify_doc f) s = (Ok a, s') ->
  s' = set_doc (f (doc s)) s.
Proof.
  intros H. apply at_line_ok_inv in H as [_ H].
  unfold modify_doc in H. now inversion H.
Qed.

Lemma new_Document_ok line s a s' :
  new_Document E line s = (Ok a, s') -> s' = set_doc (blank_document E) s.
Proof. apply modify_at_ok. Qed.

Lemma doc_sections_ok line s xs s' :
  doc_sections E line s = (Ok xs, s') ->
  xs = seq 0 (length (sections (doc s))) /\ s' = s.
Proof.
  intros H. apply at_line_ok_inv in H as [_ H]. now inversion H.
Qed.

Lemma add_paragraph_ok line s p s' :
  add_paragraph E line s = (Ok p, s') ->
  p = length (paragraphs (doc s)) /\
  s' = set_doc (mkDocument (sections (doc s))
                  (paragraphs (doc s) ++ [mkParagraph None []])) s.
Proof.
  intros H. apply at_line_ok_inv in H as [_ H]. now inversion H.
Qed.

Lemma set_alignment_ok line p a s u s' :
  set_alignment E line p a s = (Ok u, s') ->
  s' = set_doc (alter_paragraph (fun x => mkParagraph (Some a) (runs x)) p (doc s)) s.
Proof. apply modify_at_ok. Qed.

Lemma add_run_ok line p text s r s' :
  add_run E line p text s = (Ok r, s') ->
  r = (p, match paragraphs (doc s) !! p with
          | Some x => length (runs x)
          | None => O
          end) /\
  s' = set_doc (alter_paragraph
                  (fun x => mkParagraph (alignment x) (runs x ++ [mkRun text None]))
                  p (doc s)) s.
Proof.
  intros H. apply at_line_ok_inv in H as [_ H]. now inversion H.
Qed.

Lemma set_font_size_ok line r v s u s' :
  set_font_size E line r v s = (Ok u, s') ->
  s' = set_doc
         (alter_paragraph
            (fun x => mkParagraph (alignment x)
                        (alter (fun y => mkRun (run_text y) (Some v)) (snd r) (runs x)))
            (fst r) (doc s)) s.
Proof. apply modify_at_ok. Qed.

Lemma save_ok line path s u s' :
  save E line path s = (Ok u, s') ->
  s' = emit (Write path (Docx (doc s))) s.
Proof.
  unfold save. destruct (fault E line 0); intros H; [|now inversion H].
  destruct (save_truncates E); discriminate H.
Qed.

Lemma print_ok line text s u s' :
  print E line text s = (Ok u, s') -> s' = emit (Print text) s.
Proof.
  intros H. apply at_line_ok_inv in H as [_ H]. now inversion H.
Qed.

Lemma enter_ok f s u s' :
  enter f s = (Ok u, s') -> s' = emit (Call f) s.
Proof. unfold enter. intros H. now inversion H. Qed.

(** The loop of lines 23 to 27 narrows the sections it is given, one
    after the other, and touches nothing else. *)
Lemma margin_loop_ok v idx : forall s s',
  for_each idx (fun section =>
    set_top_margin E 24 section v ;;;
    set_bottom_margin E 25 section v ;;;
    set_left_margin E 26 section v ;;;
    set_right_margin E 27 section v) s = (Ok tt, s') ->
  s' = set_doc
         (mkDocument
            (foldl (fun acc i => alter (narrow v) i acc) (sections (doc s)) idx)
            (paragraphs (doc s))) s.
Proof.
  induction idx as [|i idx IH]; intros s s' H; simpl in H.
  - inversion H. now destruct s' as [[] ?].
  - apply bind_ok_inv in H as (u & s1 & Hbody & Hrest).
    apply bind_ok_inv in Hbody as (? & t1 & H1 & Hbody).
    apply bind_ok_inv in Hbody as (? & t2 & H2 & Hbody).
    apply bind_ok_inv in Hbody as (? & t3 & H3 & H4).
    apply modify_at_ok in H1, H2, H3, H4. subst t1 t2 t3 s1.
    apply IH in Hrest. subst s'. unfold set_doc, alter_section. simpl.
    now rewrite alter_narrow.
Qed.

End Returns.

(** ** The run that returns *)

(** After a step, bring the state back to a document and a trace. *)
Ltac settle H :=
  unfold set_doc, alter_paragraph, emit in H;
  cbn [doc sections paragraphs trace fst snd] in H;
  repeat (rewrite alter_last in H || rewrite lookup_last in H);
  cbn [runs alignment length app alter list_alter run_text] in H.

(** Whatever the state before it, a run of [create_template] that returns
    has built [rendered] of the blank document, and has entered once,
    written that document once and printed the two lines. *)
Lemma create_template_ok E s u s' :
  create_template E s = (Ok u, s') ->
  s' = mkState (rendered (blank_document E))
         (trace s ++
            [Call "create_template";
             Write output_path (Docx (rendered (blank_document E)));
             Print success_line;
             Print usage_line]).
Proof.
  unfold create_template. intros H.
  apply bind_ok_inv in H as (? & s1 & H1 & H).
  apply enter_ok in H1. subst s1.
  apply bind_ok_inv in H as (? & s2 & H2 & H).
  apply new_Document_ok in H2. subst s2.
  apply bind_ok_inv in H as (idx & s3 & H3 & H).
  apply doc_sections_ok in H3 as [-> ->].
  apply bind_ok_inv in H as ([] & s4 & H4 & H).
  apply margin_loop_ok in H4. subst s4.
  cbn [doc set_doc emit sections paragraphs trace] in H.
  rewrite alter_each in H.
  (* lines 30 to 36 *)
  apply bind_ok_inv in H as (p & s5 & H5 & H).
  apply add_paragraph_ok in H5 as [-> ->].
  apply bind_ok_inv in H as (? & s6 & H6 & H).
  apply set_alignment_ok in H6. subst s6.
  apply bind_ok_inv in H as (r & s7 & H7 & H).
  apply add_run_ok in H7 as [-> ->].
  apply bind_ok_inv in H as (? & s8 & H8 & H).
  apply set_font_size_ok in H8. subst s8.
  settle H.
  (* lines 40 to 43 *)
  apply bind_ok_inv in H as (p2 & s9 & H9 & H).
  apply add_paragraph_ok in H9 as [-> ->].
  apply bind_ok_inv in H as (? & s10 & H10 & H).
  apply set_alignment_ok in H10. subst s10.
  apply bind_ok_inv in H as (r2 & s11 & H11 & H).
  apply add_run_ok in H11 as [-> ->].
  apply bind_ok_inv in H as (? & s12 & H12 & H).
  apply set_font_size_ok in H12. subst s12.
  settle H.
  (* lines 46 to 48 *)
  apply bind_ok_inv in H as (p3 & s13 & H13 & H).
  apply add_paragraph_ok in H13 as [-> ->].
  apply bind_ok_inv in H as (r3 & s14 & H14 & H).
  apply add_run_ok in H14 as [-> ->].
  apply bind_ok_inv in H as (? & s15 & H15 & H).
  apply set_font_size_ok in H15. subst s15.
  settle H.
  (* lines 51 to 54 *)
  cbv zeta in H.
  apply bind_ok_inv in H as (? & s16 & H16 & H).
  apply save_ok in H16. subst s16.
  apply bind_ok_inv in H as (? & s17 & H17 & H).
  apply print_ok in H17. subst s17.
  apply print_ok in H. subst s'.
  unfold emit, rendered. cbn [doc trace].
  rewrite <- !app_assoc. reflexivity.
Qed.

(** ** The run in which nothing raises *)

Section Progress.

Variable E : env.
Hypothesis no_fault : forall line i, fault E line i = None.

Lemma returns_bind {A B} (c : Py A) (k : A -> Py B) :
  returns c -> (forall a, returns (k a)) -> returns (bind c k).
Proof.
  intros Hc Hk s. unfold bind.
  destruct (Hc s) as (a & s1 & ->). apply Hk.
Qed.

Lemma returns_at_line {A} line i (c : Py A) :
  returns c -> returns (at_line E line i c).
Proof.
  intros Hc s. unfold at_line. rewrite no_fault. apply Hc.
Qed.

Lemma returns_pure {A} (f : state -> A) (g : state -> state) :
  returns (fun s => (Ok (f s), g s)).
Proof. intros s. exists (f s), (g s). reflexivity. Qed.

Lemma returns_for_each {A} (xs : list A) (body : A -> Py unit) :
  (forall x, returns (body x)) -> returns (for_each xs body).
Proof.
  intros Hbody. induction xs as [|x xs IH]; simpl.
  - intros s. exists tt, s. reflexivity.
  - apply returns_bind; [apply Hbody | intros _; exact IH].
Qed.

Lemma returns_save line path : returns (save E line path).
Proof.
  intros s. unfold save. rewrite no_fault. eexists _, _. reflexivity.
Qed.

(** With no exception injected, [create_template] returns. *)
Lemma create_template_returns s :
  exists s', create_template E s = (Ok tt, s').
Proof.
  assert (H : returns (create_template E)).
  { unfold create_template, enter, new_Document, doc_sections, set_top_margin,
      set_bottom_margin, set_left_margin, set_right_margin, add_paragraph,
      set_alignment, add_run, set_font_size, print, modify_doc.
    repeat first
      [ apply returns_bind; [| intros ? ]
      | apply returns_for_each; intros ?
      | apply returns_save
      | apply returns_at_line
      | apply (returns_pure (fun _ => tt))
      | apply returns_pure ]. }
  destruct (H s) as ([] & s' & Hs'). exists s'. exact Hs'.
Qed.

End Progress.

(** ** Function entries on every path *)

Lemma calls_emit ev s :
  calls (trace (emit ev s)) = (calls (trace s) + (if is_call ev then 1 else 0))%nat.
Proof.
  unfold calls, emit. cbn [trace].
  rewrite List.filter_app, length_app. simpl.
  destruct (is_call ev); reflexivity.
Qed.

Section Entries.

Variable E : env.

Lemma enters_nothing_bind {A B} (c : Py A) (k : A -> Py B) :
  enters_nothing c -> (forall a, enters_nothing (k a)) -> enters_nothing (bind c k).
Proof.
  intros Hc Hk s. unfold bind. specialize (Hc s).
  destruct (c s) as [[a|e] s1]; simpl in *.
  - rewrite (Hk a s1). exact Hc.
  - exact Hc.
Qed.

Lemma enters_nothing_at_line {A} line i (c : Py A) :
  enters_nothing c -> enters_nothing (at_line E line i c).
Proof.
  intros Hc s. unfold at_line. destruct (fault E line i); [reflexivity | apply Hc].
Qed.

Lemma enters_nothing_modify f : enters_nothing (modify_doc f).
Proof. intros s. reflexivity. Qed.

Lemma enters_nothing_for_each {A} (xs : list A) (body : A -> Py unit) :
  (forall x, enters_nothing (body x)) -> enters_nothing (for_each xs body).
Proof.
  intros Hbody. induction xs as [|x xs IH]; simpl.
  - intros s. reflexivity.
  - apply enters_nothing_bind; [apply Hbody | intros _; exact IH].
Qed.

Lemma enters_nothing_save line path : enters_nothing (save E line path).
Proof.
  intros s. unfold save.
  destruct (fault E line 0); [destruct (save_truncates E)|]; cbn [snd];
    rewrite ?calls_emit; simpl; lia.
Qed.

Lemma enters_nothing_print line text : enters_nothing (print E line text).
Proof.
  apply enters_nothing_at_line. intros s. cbn [snd].
  rewrite calls_emit. simpl. lia.
Qed.

(** [create_template] is entered once and calls no function of the
    script, on every path through it. *)
Lemma create_template_enters_once s :
  calls (trace (snd (create_template E s))) = S (calls (trace s)).
Proof.
  unfold create_template.
  unfold bind at 1. unfold enter at 1.
  match goal with
  | |- calls (trace (snd (?c ?s1))) = _ =>
      assert (Hrest : enters_nothing c); [| rewrite (Hrest s1)]
  end.
  - repeat first
      [ apply enters_nothing_bind; [| intros ? ]
      | apply enters_nothing_for_each; intros ?
      | apply enters_nothing_save
      | apply enters_nothing_print
      | apply enters_nothing_at_line
      | apply enters_nothing_modify
      | (intros ?; reflexivity) ].
  - rewrite calls_emit. simpl. lia.
Qed.

End Entries.

(** Facts about a concrete run are settled by running it. *)
Ltac by_running := vm_compute; reflexivity.

(** ** The handlers and the end of the process *)

Lemma printed_app t1 t2 : printed (t1 ++ t2) = printed t1 ++ printed t2.
Proof. unfold printed. apply omap_app. Qed.

Lemma written_app t1 t2 : written (t1 ++ t2) = written t1 ++ written t2.
Proof. unfold written. apply omap_app. Qed.

Lemma calls_app t1 t2 : calls (t1 ++ t2) = (calls t1 + calls t2)%nat.
Proof. unfold calls. now rewrite List.filter_app, length_app. Qed.

(** Messages write no file and enter no function. *)
Lemma messages_are_quiet out :
  forallb is_message out = true -> written out = [] /\ calls out = 0%nat.
Proof.
  induction out as [|ev out IH]; [split; reflexivity|].
  cbn [forallb]. intros H. apply andb_prop in H as [Hev Hout].
  destruct (IH Hout) as [Hw Hc].
  destruct ev; try discriminate Hev; split; assumption.
Qed.

Lemma state_eta s : mkState (doc s) (trace s ++ []) = s.
Proof. destruct s. cbn. now rewrite app_nil_r. Qed.

Section Ending.

Variable E : env.

Lemma finalize_flushes s0 r : fault E 66 0 = None -> finalize E s0 r = r.
Proof. intros H. unfold finalize. now rewrite H. Qed.

Lemma finalize_nothing_to_flush s0 t s1 :
  printed (trace s1) = printed (trace s0) -> finalize E s0 (t, s1) = (t, s1).
Proof.
  intros H. unfold finalize. cbn [snd]. rewrite H, Nat.ltb_irrefl.
  now destruct (fault E 66 0).
Qed.

(** Finalising only reports, and does not turn a failed run into a run
    that finished. *)
Lemma finalize_reports s0 t s1 :
  exists t' out,
    finalize E s0 (t, s1) = (t', mkState (doc s1) (trace s1 ++ out)) /\
    forallb is_message out = true /\
    (t <> Finished -> t' <> Finished).
Proof.
  unfold finalize. cbn [snd].
  destruct (fault E 66 0) as [e|];
    [destruct (length (printed (trace s0)) <? length (printed (trace s1)))%nat|].
  - exists (Unflushed e), [Traceback e]. repeat split. discriminate.
  - exists t, []. rewrite state_eta. repeat split. auto.
  - exists t, []. rewrite state_eta. repeat split. auto.
Qed.

Lemma toplevel_reports e s :
  exists t out,
    toplevel e s = (t, mkState (doc s) (trace s ++ out)) /\
    forallb is_message out = true /\
    t <> Finished.
Proof.
  unfold toplevel, unhandled.
  destruct (exn_cls e);
    try (exists (Unhandled e), [Traceback e]; repeat split; discriminate).
  exists (Exited code), []. rewrite state_eta. repeat split. discriminate.
Qed.

(** A handler never returns: it ends in [exit], or in what a call of its
    own raises, and on the way it only prints. *)
Lemma handlers_raise e s :
  exists e' out,
    handlers E e s = (Raise e', mkState (doc s) (trace s ++ out)) /\
    forallb is_message out = true.
Proof.
  unfold handlers, bind, print, exit, at_line, raise.
  destruct (isinstance e ImportError); [|destruct (isinstance e Exception)].
  - destruct (fault E 60 0) as [e0|];
      [exists e0, []; rewrite state_eta; split; reflexivity|].
    destruct (fault E 61 0) as [e1|];
      [exists e1, [Print "Error: python-docx is not installed."];
       split; reflexivity|].
    destruct (fault E 62 0) as [e2|]; eexists _, [_; _];
      unfold emit; cbn [doc trace]; rewrite <- app_assoc; split; reflexivity.
  - destruct (fault E 64 0) as [e0|];
      [exists e0, []; rewrite state_eta; split; reflexivity|].
    destruct (fault E 65 0) as [e1|]; eexists _, [_]; split; reflexivity.
  - exists e, []. rewrite state_eta. split; reflexivity.
Qed.

(** Whatever [create_template] raised, what follows it only reports. *)
Lemma script_after_raise s e s1 :
  docx_installed E = true ->
  create_template E s = (Raise e, s1) ->
  exists t out,
    script E s = (t, mkState (doc s1) (trace s1 ++ out)) /\
    t <> Finished /\
    forallb is_message out = true.
Proof.
  intros Hdocx Hraise.
  unfold script, imports. rewrite Hdocx. unfold ret, main. rewrite Hraise.
  destruct (handlers_raise e s1) as (e' & out1 & -> & Hout1).
  destruct (toplevel_reports e' (mkState (doc s1) (trace s1 ++ out1)))
    as (t2 & out2 & -> & Hout2 & Ht2).
  cbn [doc trace].
  destruct (finalize_reports s t2 (mkState (doc s1) ((trace s1 ++ out1) ++ out2)))
    as (t3 & out3 & -> & Hout3 & Ht3).
  cbn [doc trace].
  exists t3, (out1 ++ out2 ++ out3). rewrite <- !app_assoc.
  split; [reflexivity|]. split; [auto|].
  rewrite !forallb_app, Hout1, Hout2, Hout3. reflexivity.
Qed.

End Ending.

(** * Properties of the script *)

(** ** C1: the dependency is missing *)

(** C1, as the code behaves.  Without python-docx the import of line 13
    raises [ModuleNotFoundError] at module level, before the [try] of line
    57 is entered: no handler takes it, nothing is printed on standard
    output (so neither line of the dependency-missing message), the
    interpreter shows the traceback and the exit status is 1. *)
Theorem missing_docx_is_unhandled b f t s :
  let e := mkExn ModuleNotFoundError "No module named 'docx'" in
  script (mkEnv false b f t) s = (Unhandled e, emit (Traceback e) s) /\
  printed (trace (snd (script (mkEnv false b f t) s))) = printed (trace s) /\
  calls (trace (snd (script (mkEnv false b f t) s))) = calls (trace s) /\
  exit_status (fst (script (mkEnv false b f t) s)) = 1.
Proof.
  cbv zeta.
  assert (Hscript :
    script (mkEnv false b f t) s =
      (Unhandled (mkExn ModuleNotFoundError "No module named 'docx'"),
       emit (Traceback (mkExn ModuleNotFoundError "No module named 'docx'")) s)).
  { unfold script, imports. cbn [docx_installed].
    unfold raise, toplevel. cbn [exn_cls]. unfold unhandled.
    apply finalize_nothing_to_flush.
    unfold emit. cbn [trace]. rewrite printed_app. apply app_nil_r. }
  rewrite Hscript. cbn [fst snd]. repeat split.
  - unfold emit. cbn [trace]. rewrite printed_app. apply app_nil_r.
  - rewrite calls_emit. simpl. lia.
Qed.

(** ** C2: three marker paragraphs at 1pt *)

(** C2.  When [Document()] opens a blank document with an empty body and
    [create_template] returns, the document it has built (and saved) has
    exactly three paragraphs, their texts are '{% for page in pages %}',
    '{{%img}}' and '{% endfor %}', and every run in them has font size
    [Pt(1)], which is 12700 EMU. *)
Theorem three_marker_paragraphs E s u s' :
  paragraphs (blank_document E) = [] ->
  create_template E s = (Ok u, s') ->
  length (paragraphs (doc s')) = 3%nat /\
  paragraph_text <$> paragraphs (doc s') =
    ["{% for page in pages %}"; "{{%img}}"; "{% endfor %}"] /\
  Forall (fun p => length (runs p) = 1%nat /\
                   Forall (fun r => font_size r = Some (Pt 1)) (runs p))
         (paragraphs (doc s')) /\
  Pt 1 = 12700.
Proof.
  intros Hbody H. apply create_template_ok in H. subst s'.
  cbn [doc rendered paragraphs]. rewrite Hbody. simpl.
  repeat split; repeat constructor.
Qed.

Lemma three_marker_paragraphs_witness :
  paragraphs (blank_document calm) = [] /\
  length (paragraphs (doc (snd (create_template calm fresh)))) = 3%nat /\
  paragraph_text <$> paragraphs (doc (snd (create_template calm fresh))) =
    ["{% for page in pages %}"; "{{%img}}"; "{% endfor %}"].
Proof.
  split; [reflexivity|].
  destruct (three_marker_paragraphs calm fresh tt (snd (create_template calm fresh)))
    as (Hlen & Htext & _); [reflexivity | by_running |].
  split; [exact Hlen | exact Htext].
Defined.

(** ** C3: half-inch margins *)

(** C3.  When [create_template] returns, every section of the document it
    has built has its top, bottom, left and right margin equal to
    [Inches(0.5)], which is 457200 EMU, half of the 914400 of an inch; the
    sections are those of the blank document, none added or removed. *)
Theorem half_inch_margins E s u s' :
  create_template E s = (Ok u, s') ->
  Forall (fun x => top_margin x = Some (Inches 0.5) /\
                   bottom_margin x = Some (Inches 0.5) /\
                   left_margin x = Some (Inches 0.5) /\
                   right_margin x = Some (Inches 0.5))
         (sections (doc s')) /\
  length (sections (doc s')) = length (sections (blank_document E)) /\
  2 * Inches 0.5 = EMUS_PER_INCH.
Proof.
  intros H. apply create_template_ok in H. subst s'.
  cbn [doc rendered sections]. repeat split.
  - apply Forall_fmap, Forall_true. intros x. unfold narrow. simpl. auto.
  - apply length_fmap.
Qed.

Lemma half_inch_margins_witness :
  Forall (fun x => top_margin x = Some (Inches 0.5) /\
                   bottom_margin x = Some (Inches 0.5) /\
                   left_margin x = Some (Inches 0.5) /\
                   right_margin x = Some (Inches 0.5))
         (sections (doc (snd (create_template calm fresh)))).
Proof.
  apply (half_inch_margins calm fresh tt (snd (create_template calm fresh))).
  by_running.
Defined.

(** ** C4: any other exception *)

(** C4, as stated, fails.  An interrupt raised while [doc.save] writes is
    an exception other than [ImportError] raised during the file save, yet
    [except Exception] does not take it: the script does not print
    'Error creating template: ...' and does not end through [exit(1)]. *)
Lemma interrupt_is_not_reported :
  fst (create_template interrupted fresh) = Raise interrupt /\
  exn_cls interrupt <> ImportError /\
  isinstance interrupt ImportError = false /\
  fst (script interrupted fresh) = Unhandled interrupt /\
  ~ In (Print ("Error creating template: " ++ exn_str interrupt))
       (trace (snd (script interrupted fresh))) /\
  exit_status (fst (script interrupted fresh)) <> 1.
Proof.
  split; [by_running|]. split; [discriminate|]. split; [by_running|].
  split; [by_running|]. split.
  - vm_compute. intros H.
    repeat (destruct H as [H|H]; [discriminate H|]). exact H.
  - vm_compute. discriminate.
Qed.

(** The conditions on standard output in C4 are needed: with the output
    directory unwritable and standard output on a full device, the line
    is lost and the status is 120. *)
Lemma unwritable_with_full_stdout :
  fst (create_template unwritable_full_stdout fresh) = Raise permission_denied /\
  exists e, fst (script unwritable_full_stdout fresh) = Unflushed e /\
  exit_status (fst (script unwritable_full_stdout fresh)) = 120.
Proof.
  split; [by_running|]. exists no_space. split; by_running.
Qed.

(** So is the condition on the handler's own [print]: with standard
    output unbuffered on the same device, the [print] of line 53 raises
    after the file is saved, the [print] of line 64 raises in its turn, and
    no line is printed at all. *)
Lemma handler_print_can_fail :
  fst (create_template unbuffered_full_stdout fresh) = Raise no_space /\
  fst (script unbuffered_full_stdout fresh) = Unhandled no_space /\
  printed (trace (snd (script unbuffered_full_stdout fresh))) = [].
Proof. repeat split; by_running. Qed.

(** C4, amended.  If [create_template] raises an exception that is an
    instance of [Exception] and not an instance of [ImportError], and the
    handler's own [print] and [exit] (lines 64 and 65) and the flush of
    standard output at the end do not fail, the script prints
    'Error creating template: ' followed by [str] of that exception,
    prints nothing else, and ends through [exit(1)]: the exit status
    is 1. *)
Theorem other_exception_is_reported E s e s1 :
  docx_installed E = true ->
  create_template E s = (Raise e, s1) ->
  isinstance e Exception = true ->
  isinstance e ImportError = false ->
  fault E 64 0 = None ->
  fault E 65 0 = None ->
  fault E 66 0 = None ->
  script E s =
    (Exited 1, emit (Print ("Error creating template: " ++ exn_str e)) s1) /\
  exit_status (fst (script E s)) = 1.
Proof.
  intros Hdocx Hraise Hexc Himp H64 H65 H66.
  assert (Hscript : script E s =
    (Exited 1, emit (Print ("Error creating template: " ++ exn_str e)) s1)).
  { unfold script, imports. rewrite Hdocx. unfold ret, main.
    rewrite Hraise. rewrite finalize_flushes by exact H66.
    unfold handlers. rewrite Himp, Hexc.
    unfold bind, print, exit, at_line, raise. rewrite H64, H65.
    reflexivity. }
  split; [exact Hscript | now rewrite Hscript].
Qed.

Lemma other_exception_is_reported_witness :
  script unwritable fresh =
    (Exited 1,
     emit (Print "Error creating template: [Errno 13] Permission denied: '../assets/docx/document_template.docx'")
       (snd (create_template unwritable fresh))) /\
  exit_status (fst (script unwritable fresh)) = 1.
Proof.
  apply (other_exception_is_reported unwritable fresh permission_denied
           (snd (create_template unwritable fresh))); by_running.
Defined.

(** ** C5: the one file written *)

(** C5.  A run of [create_template] that returns has written exactly one
    file: the document it has built, at the path
    '../assets/docx/document_template.docx'. *)
Theorem saves_to_the_fixed_path E s u s' :
  create_template E s = (Ok u, s') ->
  exists evs,
    trace s' = trace s ++ evs /\
    written evs = [("../assets/docx/document_template.docx", Docx (doc s'))].
Proof.
  intros H. apply create_template_ok in H. subst s'.
  eexists. split; reflexivity.
Qed.

Lemma saves_to_the_fixed_path_witness :
  exists evs,
    trace (snd (create_template calm fresh)) = trace fresh ++ evs /\
    written evs =
      [("../assets/docx/document_template.docx",
        Docx (doc (snd (create_template calm fresh))))].
Proof.
  apply (saves_to_the_fixed_path calm fresh tt). by_running.
Defined.

(** ** C6: the end of a successful run *)

(** C6, as stated, fails.  With standard output on a full device
    [create_template] returns without raising, yet the flush at the end
    of the process fails: the two lines are lost and the exit status is
    120, not 0. *)
Lemma full_stdout_ends_with_120 :
  fst (create_template full_stdout fresh) = Ok tt /\
  fst (script full_stdout fresh) = Unflushed no_space /\
  exit_status (fst (script full_stdout fresh)) = 120 /\
  exit_status (fst (script full_stdout fresh)) <> 0.
Proof.
  split; [by_running|]. split; [by_running|]. split; [by_running|].
  vm_compute. discriminate.
Qed.

(** C6, amended.  When the imports succeed, [create_template] returns and
    the flush of standard output at the end does not fail, the script has
    printed the two success lines and nothing else, runs off its end
    without a call of [exit], and the exit status is 0. *)
Theorem success_ends_with_status_zero E s u s' :
  docx_installed E = true ->
  fault E 66 0 = None ->
  create_template E s = (Ok u, s') ->
  script E s = (Finished, s') /\
  exit_status (fst (script E s)) = 0 /\
  exists evs,
    trace s' = trace s ++ evs /\
    printed evs =
      ["✓ Template created successfully at: ../assets/docx/document_template.docx";
       "  This template can now be used by the Flutter app to generate DOCX files."].
Proof.
  intros Hdocx H66 H.
  assert (Hscript : script E s = (Finished, s')).
  { unfold script, imports. rewrite Hdocx. unfold ret, main. rewrite H.
    now apply finalize_flushes. }
  split; [exact Hscript|]. split; [now rewrite Hscript|].
  apply create_template_ok in H. subst s'.
  eexists. split; reflexivity.
Qed.

Lemma success_ends_with_status_zero_witness :
  script calm fresh = (Finished, snd (create_template calm fresh)) /\
  exit_status (fst (script calm fresh)) = 0.
Proof.
  destruct (success_ends_with_status_zero calm fresh tt
              (snd (create_template calm fresh)))
    as (Hscript & Hstatus & _); [reflexivity | reflexivity | by_running |].
  split; [exact Hscript | exact Hstatus].
Defined.

(** ** C7: the order of the markers *)

(** C7.  When the blank document has an empty body and [create_template]
    returns, the text '{% for page in pages %}' is that of the first
    paragraph, '{{%img}}' that of the second and '{% endfor %}' that of the
    third; wherever the three texts are found, they are found in this
    order. *)
Theorem markers_in_order E s u s' :
  paragraphs (blank_document E) = [] ->
  create_template E s = (Ok u, s') ->
  let texts := paragraph_text <$> paragraphs (doc s') in
  texts !! 0%nat = Some "{% for page in pages %}" /\
  texts !! 1%nat = Some "{{%img}}" /\
  texts !! 2%nat = Some "{% endfor %}" /\
  forall i j k : nat,
    texts !! i = Some "{% for page in pages %}" ->
    texts !! j = Some "{{%img}}" ->
    texts !! k = Some "{% endfor %}" ->
    (i < j)%nat /\ (j < k)%nat.
Proof.
  intros Hbody H. apply create_template_ok in H. subst s'.
  cbn [doc rendered paragraphs]. rewrite Hbody. cbv zeta.
  change (paragraph_text <$> [] ++
            [marker (Some CENTER) for_marker (Pt 1);
             marker (Some CENTER) img_marker (Pt 1);
             marker None endfor_marker (Pt 1)])
    with ["{% for page in pages %}"; "{{%img}}"; "{% endfor %}"].
  split; [reflexivity|]. split; [reflexivity|]. split; [reflexivity|].
  intros i j k Hi Hj Hk.
  destruct i as [|[|[|i]]]; cbn in Hi; try discriminate Hi.
  destruct j as [|[|[|j]]]; cbn in Hj; try discriminate Hj.
  destruct k as [|[|[|k]]]; cbn in Hk; try discriminate Hk.
  lia.
Qed.

Lemma markers_in_order_witness :
  let texts := paragraph_text <$> paragraphs (doc (snd (create_template calm fresh))) in
  texts !! 0%nat = Some "{% for page in pages %}" /\
  texts !! 1%nat = Some "{{%img}}" /\
  texts !! 2%nat = Some "{% endfor %}".
Proof.
  destruct (markers_in_order calm fresh tt (snd (create_template calm fresh)))
    as (H0 & H1 & H2 & _); [reflexivity | by_running |].
  cbv zeta. split; [exact H0 | split; [exact H1 | exact H2]].
Defined.

(** ** C8: what the handlers do *)

(** C8.  When [create_template] raises, what the script does afterwards
    is only to tell the user: the events that follow the exception are
    printed lines or the traceback.  The document object and the files
    written are left as they were when the exception was raised, and
    [create_template] has been entered once in the whole run, not again. *)
Theorem handlers_only_report E s e s1 :
  docx_installed E = true ->
  create_template E s = (Raise e, s1) ->
  exists t out,
    script E s = (t, mkState (doc s1) (trace s1 ++ out)) /\
    t <> Finished /\
    forallb is_message out = true /\
    written (trace s1 ++ out) = written (trace s1) /\
    calls (trace s1 ++ out) = S (calls (trace s)).
Proof.
  intros Hdocx Hraise.
  pose proof (create_template_enters_once E s) as Honce.
  rewrite Hraise in Honce. cbn [snd] in Honce.
  destruct (script_after_raise E s e s1 Hdocx Hraise)
    as (t & out & Hscript & Ht & Hout).
  destruct (messages_are_quiet out Hout) as [Hw Hc].
  exists t, out. repeat split; try assumption.
  - rewrite written_app, Hw. apply app_nil_r.
  - rewrite calls_app, Hc, Honce. lia.
Qed.

Lemma handlers_only_report_witness :
  exists t out,
    script unwritable fresh =
      (t, mkState (doc (snd (create_template unwritable fresh)))
            (trace (snd (create_template unwritable fresh)) ++ out)) /\
    t <> Finished /\
    forallb is_message out = true /\
    written (trace (snd (create_template unwritable fresh)) ++ out) =
      written (trace (snd (create_template unwritable fresh))) /\
    calls (trace (snd (create_template unwritable fresh)) ++ out) =
      S (calls (trace fresh)).
Proof.
  apply (handlers_only_report unwritable fresh permission_denied
           (snd (create_template unwritable fresh))); by_running.
Defined.

(** ** C9: the alignment of the three paragraphs *)

(** C9.  When the blank document has an empty body and [create_template]
    returns, the alignments of the three paragraphs are, in order, CENTER,
    CENTER and none: the paragraphs with the texts
    '{% for page in pages %}' and '{{%img}}' are centred and the paragraph
    with the text '{% endfor %}' has no alignment of its own. *)
Theorem marker_alignment E s u s' :
  paragraphs (blank_document E) = [] ->
  create_template E s = (Ok u, s') ->
  alignment <$> paragraphs (doc s') = [Some CENTER; Some CENTER; None] /\
  forall p, In p (paragraphs (doc s')) ->
    (paragraph_text p = "{% for page in pages %}" -> alignment p = Some CENTER) /\
    (paragraph_text p = "{{%img}}" -> alignment p = Some CENTER) /\
    (paragraph_text p = "{% endfor %}" -> alignment p = None).
Proof.
  intros Hbody H. apply create_template_ok in H. subst s'.
  cbn [doc rendered paragraphs]. rewrite Hbody. cbn [app].
  split; [reflexivity|].
  intros p [<-|[<-|[<-|[]]]]; repeat split; intros Htext;
    try reflexivity; vm_compute in Htext; discriminate Htext.
Qed.

Lemma marker_alignment_witness :
  alignment <$> paragraphs (doc (snd (create_template calm fresh))) =
    [Some CENTER; Some CENTER; None].
Proof.
  apply (marker_alignment calm fresh tt (snd (create_template calm fresh)));
    by_running.
Defined.

(** ** C10: no input *)

(** C10.  [create_template] reads nothing but the blank document of the
    library.  Two runs that return, from whatever states and under
    whatever environments with the same blank document, have built the
    same document (the same section margins, paragraph texts, alignments
    and font sizes) and have done the same things in the same order: the
    same file content written to the same path, the same lines printed. *)
Theorem create_template_takes_no_input E1 E2 s1 s2 u1 u2 s1' s2' :
  blank_document E1 = blank_document E2 ->
  create_template E1 s1 = (Ok u1, s1') ->
  create_template E2 s2 = (Ok u2, s2') ->
  doc s1' = doc s2' /\
  exists evs,
    trace s1' = trace s1 ++ evs /\
    trace s2' = trace s2 ++ evs /\
    fst <$> written evs = ["../assets/docx/document_template.docx"].
Proof.
  intros Hblank H1 H2.
  apply create_template_ok in H1, H2. subst s1' s2'. cbn [doc trace].
  rewrite Hblank. split; [reflexivity|].
  eexists. repeat split.
Qed.

Lemma create_template_takes_no_input_witness :
  doc (snd (create_template calm fresh)) =
  doc (snd (create_template slow_disk busy)).
Proof.
  apply (create_template_takes_no_input calm slow_disk fresh busy tt tt
           (snd (create_template calm fresh))
           (snd (create_template slow_disk busy))); by_running.
Defined.

(** * Further properties *)

(** ** Running forward

    Where the environment injects nothing, a call has its own effect. *)

Section Forward.

Variable E : env.

Lemma bind_run {A B} (c : Py A) (k : A -> Py B) s a s1 :
  c s = (Ok a, s1) -> bind c k s = k a s1.
Proof. intros H. unfold bind. now rewrite H. Qed.

Lemma at_line_run {A} line i (c : Py A) s :
  fault E line i = None -> at_line E line i c s = c s.
Proof. intros H. unfold at_line. now rewrite H. Qed.

Lemma margin_loop_run v idx :
  (forall line i, (line < 52)%nat -> fault E line i = None) ->
  forall s,
    for_each idx (fun section =>
      set_top_margin E 24 section v ;;;
      set_bottom_margin E 25 section v ;;;
      set_left_margin E 26 section v ;;;
      set_right_margin E 27 section v) s
    = (Ok tt,
       set_doc
         (mkDocument
            (foldl (fun acc i => alter (narrow v) i acc) (sections (doc s)) idx)
            (paragraphs (doc s))) s).
Proof.
  intros Hnone. induction idx as [|i idx IH]; intros s; simpl.
  - unfold ret, set_doc. now destruct s as [[] ?].
  - rewrite (bind_run _ _ s tt
               (set_doc (alter_section (narrow v) i (doc s)) s)).
    + rewrite IH. reflexivity.
    + unfold bind, set_top_margin, set_bottom_margin, set_left_margin,
        set_right_margin, at_line, modify_doc.
      rewrite !Hnone by lia.
      unfold set_doc, alter_section. cbn [doc sections paragraphs trace].
      now rewrite alter_narrow.
Qed.

(** One statement of the script, run where nothing is injected. *)
Ltac no_fault_here :=
  match goal with
  | H : forall line i, (line < 52)%nat -> fault _ line i = None |- _ =>
      apply H; lia
  end.

Ltac run_call :=
  etransitivity;
  [ apply bind_run;
    first [ reflexivity
          | rewrite at_line_run by no_fault_here; reflexivity ]
  | cbv beta ].

Ltac tidy :=
  unfold set_doc, alter_paragraph;
  cbn [doc sections paragraphs trace fst snd];
  rewrite ?alter_last, ?lookup_last;
  cbn [runs alignment length app alter list_alter run_text];
  rewrite ?alter_last;
  cbn [runs alignment length app alter list_alter run_text].

(** If no call before [doc.save] raises, the run reaches line 52 with the
    finished document and nothing done to the outside yet. *)
Lemma create_template_reaches_save s :
  (forall line i, (line < 52)%nat -> fault E line i = None) ->
  create_template E s =
    (save E 52 output_path ;;;
     print E 53 success_line ;;;
     print E 54 usage_line)
      (mkState (rendered (blank_document E))
               (trace s ++ [Call "create_template"])).
Proof.
  intros Hnone.
  unfold create_template.
  run_call.
  unfold new_Document. run_call.
  unfold doc_sections. run_call.
  etransitivity;
    [ apply bind_run; apply margin_loop_run; assumption | cbv beta ].
  cbn [doc set_doc emit sections paragraphs trace]. rewrite alter_each.
  unfold add_paragraph, set_alignment, add_run, set_font_size, modify_doc.
  do 4 run_call. tidy.
  do 4 run_call. tidy.
  do 3 run_call. tidy.
  cbv zeta. unfold rendered, emit. cbn [doc trace].
  rewrite <- ?app_assoc. reflexivity.
Qed.

End Forward.

(** ** What is written, on every path *)

Section Writes.

Variable E : env.

Lemma appends_bind {A B} (c : Py A) (k : A -> Py B) n1 n2 :
  appends n1 c -> (forall a, appends n2 (k a)) -> appends (n1 + n2) (bind c k).
Proof.
  intros Hc Hk s. unfold bind.
  destruct (Hc s) as (ev1 & H1 & Hp1 & Hn1).
  destruct (c s) as [[a|e] s1]; cbn [snd] in *.
  - destruct (Hk a s1) as (ev2 & H2 & Hp2 & Hn2).
    exists (ev1 ++ ev2). rewrite H2, H1, <- app_assoc, written_app.
    split; [reflexivity|]. split.
    + apply Forall_app. split; assumption.
    + rewrite length_app. lia.
  - exists ev1. repeat split; try assumption. lia.
Qed.

Lemma appends_quiet {A} (c : Py A) :
  (forall s, trace (snd (c s)) = trace s) -> appends 0 c.
Proof.
  intros H s. exists []. rewrite H, app_nil_r. repeat split; constructor.
Qed.

Lemma appends_at_line {A} line i (c : Py A) n :
  appends n c -> appends n (at_line E line i c).
Proof.
  intros Hc s. unfold at_line. destruct (fault E line i); [|apply Hc].
  exists []. cbn [snd]. rewrite app_nil_r. repeat split; [constructor | simpl; lia].
Qed.

Lemma appends_for_each {A} (xs : list A) (body : A -> Py unit) :
  (forall x, appends 0 (body x)) -> appends 0 (for_each xs body).
Proof.
  intros Hbody. induction xs as [|x xs IH]; simpl.
  - apply appends_quiet. reflexivity.
  - apply (appends_bind _ _ 0 0); [apply Hbody | intros _; exact IH].
Qed.

Lemma appends_enter f : appends 0 (enter f).
Proof.
  intros s. exists [Call f]. repeat split; constructor.
Qed.

Lemma appends_print line text : appends 0 (print E line text).
Proof.
  apply appends_at_line. intros s. exists [Print text].
  repeat split; constructor.
Qed.

Lemma appends_save line : appends 1 (save E line output_path).
Proof.
  intros s. unfold save.
  destruct (fault E line 0); [destruct (save_truncates E)|].
  - exists [Write output_path Truncated].
    repeat split; [repeat constructor | simpl; lia].
  - exists []. cbn [snd]. rewrite app_nil_r. repeat split; [constructor | simpl; lia].
  - exists [Write output_path (Docx (doc s))].
    repeat split; [repeat constructor | simpl; lia].
Qed.

Lemma create_template_appends : appends 1 (create_template E).
Proof.
  unfold create_template, new_Document, doc_sections, set_top_margin,
    set_bottom_margin, set_left_margin, set_right_margin, add_paragraph,
    set_alignment, add_run, set_font_size, modify_doc.
  cbv zeta.
  apply (appends_bind _ _ 0 1); [apply appends_enter | intros _].
  apply (appends_bind _ _ 0 1);
    [apply appends_at_line, appends_quiet; reflexivity | intros _].
  apply (appends_bind _ _ 0 1);
    [apply appends_at_line, appends_quiet; reflexivity | intros idx].
  apply (appends_bind _ _ 0 1).
  { apply appends_for_each. intros x.
    repeat (apply (appends_bind _ _ 0 0); [| intros _]);
      apply appends_at_line, appends_quiet; reflexivity. }
  intros _.
  do 11 (apply (appends_bind _ _ 0 1);
         [apply appends_at_line, appends_quiet; reflexivity | intros ?]).
  apply (appends_bind _ _ 1 0); [apply appends_save | intros _].
  apply (appends_bind _ _ 0 0); [apply appends_print | intros _].
  apply appends_print.
Qed.

End Writes.

(** ** The first handler *)

Lemma ImportError_is_Exception e :
  isinstance e ImportError = true -> isinstance e Exception = true.
Proof. unfold isinstance. destruct (exn_cls e); vm_compute; congruence. Qed.

(** X1.  An [ImportError] raised inside [create_template], with
    python-docx itself imported, is taken by the first handler although it
    is an [Exception] too.  Where the handler's own calls (lines 60 to 62)
    and the flush of standard output at the end do not fail, the script
    prints the two lines that blame a missing python-docx, drops the
    message of the exception, and ends through [exit(1)]. *)
Theorem import_error_inside_blames_docx E s e s1 :
  docx_installed E = true ->
  create_template E s = (Raise e, s1) ->
  isinstance e ImportError = true ->
  fault E 60 0 = None ->
  fault E 61 0 = None ->
  fault E 62 0 = None ->
  fault E 66 0 = None ->
  isinstance e Exception = true /\
  script E s =
    (Exited 1,
     mkState (doc s1)
       (trace s1 ++ [Print "Error: python-docx is not installed.";
                     Print "Install it with: pip install python-docx"])) /\
  exit_status (fst (script E s)) = 1.
Proof.
  intros Hdocx Hraise Himp H60 H61 H62 H66.
  split; [now apply ImportError_is_Exception|].
  assert (Hscript : script E s =
    (Exited 1,
     mkState (doc s1)
       (trace s1 ++ [Print "Error: python-docx is not installed.";
                     Print "Install it with: pip install python-docx"]))).
  { unfold script, imports. rewrite Hdocx. unfold ret, main.
    rewrite Hraise. rewrite finalize_flushes by exact H66.
    unfold handlers. rewrite Himp.
    unfold bind, print, exit, at_line, raise. rewrite H60, H61, H62.
    unfold toplevel, emit. cbn [exn_cls doc trace].
    now rewrite <- app_assoc. }
  split; [exact Hscript | now rewrite Hscript].
Qed.

Lemma import_error_inside_blames_docx_witness :
  printed (trace (snd (script half_installed fresh))) =
    ["Error: python-docx is not installed.";
     "Install it with: pip install python-docx"].
Proof.
  destruct (import_error_inside_blames_docx half_installed fresh broken_lxml
              (snd (create_template half_installed fresh)))
    as (_ & Hscript & _);
    [ by_running | by_running | by_running | reflexivity | reflexivity
    | reflexivity | reflexivity | ].
  rewrite Hscript. by_running.
Defined.

(** ** Every path *)

(** X2.  On every path through [create_template], returning or raising,
    the trace only grows, at most one file is written, and a file that is
    written is written at '../assets/docx/document_template.docx'. *)
Theorem writes_only_the_output_path E s :
  exists evs,
    trace (snd (create_template E s)) = trace s ++ evs /\
    Forall (fun pc => fst pc = "../assets/docx/document_template.docx")
           (written evs) /\
    (length (written evs) <= 1)%nat.
Proof. apply create_template_appends. Qed.

(** ** Failing late *)

(** X4.  If the first call to raise is the [print] of line 53 (the
    success line with its check mark), with an [Exception] that is not an
    [ImportError], the document has already been saved whole.  Where the
    handler's own [print] and [exit] (lines 64 and 65) and the flush of
    standard output at the end do not fail, the script then prints
    'Error creating template: ...' instead of the success lines and ends
    with status 1; the saved file stays. *)
Theorem failed_print_after_save E s e :
  docx_installed E = true ->
  (forall line i, (line < 53)%nat -> fault E line i = None) ->
  fault E 53 0 = Some e ->
  isinstance e Exception = true ->
  isinstance e ImportError = false ->
  fault E 64 0 = None ->
  fault E 65 0 = None ->
  fault E 66 0 = None ->
  script E s =
    (Exited 1,
     mkState (rendered (blank_document E))
       (trace s ++
          [Call "create_template";
           Write "../assets/docx/document_template.docx"
                 (Docx (rendered (blank_document E)));
           Print ("Error creating template: " ++ exn_str e)])).
Proof.
  intros Hdocx Hnone H53 Hexc Himp H64 H65 H66.
  assert (Hrun : create_template E s =
    (Raise e,
     mkState (rendered (blank_document E))
       (trace s ++
          [Call "create_template";
           Write output_path (Docx (rendered (blank_document E)))]))).
  { rewrite create_template_reaches_save by (intros; apply Hnone; lia).
    unfold bind, save, print, at_line.
    rewrite (Hnone 52%nat 0%nat) by lia. rewrite H53.
    unfold emit. cbn [doc trace]. now rewrite <- app_assoc. }
  unfold script, imports. rewrite Hdocx. unfold ret, main.
  rewrite Hrun. rewrite finalize_flushes by exact H66.
  unfold handlers. rewrite Himp, Hexc.
  unfold bind, print, exit, at_line, raise. rewrite H64, H65.
  unfold toplevel, emit. cbn [exn_cls doc trace].
  now rewrite <- app_assoc.
Qed.

Lemma failed_print_after_save_witness :
  written (trace (snd (script narrow_console fresh))) =
    [("../assets/docx/document_template.docx", Docx (rendered letter_blank))] /\
  exit_status (fst (script narrow_console fresh)) = 1.
Proof.
  rewrite (failed_print_after_save narrow_console fresh cannot_encode);
    [ split; by_running | by_running | | by_running | by_running | by_running
    | reflexivity | reflexivity | reflexivity ].
  intros line i Hlt. cbn [fault narrow_console].
  destruct (Nat.eqb_spec line 53); [lia | reflexivity].
Defined.

(** X5.  If the first call to raise is [doc.save], then whatever was
    raised and whatever happens to the handlers' own calls and to standard
    output afterwards, the script does not finish normally and what the
    save had done to the file is left as it is: the files written by the
    whole run are the unfinished file at the output path where the save
    had opened it, and none where it had not. *)
Theorem failed_save_is_not_cleaned_up E s e :
  docx_installed E = true ->
  (forall line i, (line < 52)%nat -> fault E line i = None) ->
  fault E 52 0 = Some e ->
  fst (script E s) <> Finished /\
  written (trace (snd (script E s))) =
    written (trace s) ++
    (if save_truncates E
     then [("../assets/docx/document_template.docx", Truncated)]
     else []).
Proof.
  intros Hdocx Hnone H52.
  assert (Hrun : exists s1,
    create_template E s = (Raise e, s1) /\
    written (trace s1) =
      written (trace s) ++
      (if save_truncates E then [(output_path, Truncated)] else [])).
  { rewrite create_template_reaches_save by exact Hnone.
    unfold bind, save. rewrite H52. eexists. split; [reflexivity|].
    destruct (save_truncates E); unfold emit; cbn [doc trace];
      rewrite ?written_app; simpl; rewrite ?app_nil_r; reflexivity. }
  destruct Hrun as (s1 & Hraise & Hw1).
  destruct (script_after_raise E s e s1 Hdocx Hraise)
    as (t & out & Hscript & Ht & Hout).
  destruct (messages_are_quiet out Hout) as [Hw _].
  rewrite Hscript. cbn [fst snd trace]. split; [exact Ht|].
  rewrite written_app, Hw, app_nil_r. exact Hw1.
Qed.

Lemma failed_save_is_not_cleaned_up_witness :
  written (trace (snd (script disk_full fresh))) =
    [("../assets/docx/document_template.docx", Truncated)].
Proof.
  destruct (failed_save_is_not_cleaned_up disk_full fresh no_space)
    as (_ & Hwritten); [ reflexivity | | reflexivity | exact Hwritten ].
  intros line i Hlt. cbn [fault disk_full].
  destruct (Nat.eqb_spec line 52); [lia | reflexivity].
Defined.

(** ** The whole script, when nothing raises *)

(** X6.  With python-docx installed and no call raising, the flush of
    standard output at the end included, the script enters
    [create_template] once, writes the finished document once, prints the
    two success lines and ends with status 0. *)
Theorem script_succeeds E s :
  docx_installed E = true ->
  (forall line i, fault E line i = None) ->
  script E s =
    (Finished,
     mkState (rendered (blank_document E))
       (trace s ++
          [Call "create_template";
           Write "../assets/docx/document_template.docx"
                 (Docx (rendered (blank_document E)));
           Print "✓ Template created successfully at: ../assets/docx/document_template.docx";
           Print "  This template can now be used by the Flutter app to generate DOCX files."])) /\
  exit_status (fst (script E s)) = 0.
Proof.
  intros Hdocx Hnone.
  destruct (create_template_returns E Hnone s) as [s' Hs'].
  pose proof (create_template_ok _ _ _ _ Hs') as ->.
  assert (Hscript : script E s =
    (Finished,
     mkState (rendered (blank_document E))
       (trace s ++
          [Call "create_template";
           Write output_path (Docx (rendered (blank_document E)));
           Print success_line; Print usage_line]))).
  { unfold script, imports. rewrite Hdocx. unfold ret, main. rewrite Hs'.
    apply finalize_flushes, Hnone. }
  split; [exact Hscript | now rewrite Hscript].
Qed.

Lemma script_succeeds_witness :
  fst (script calm fresh) = Finished /\
  exit_status (fst (script calm fresh)) = 0.
Proof.
  destruct (script_succeeds calm fresh) as [Hscript Hstatus];
    [reflexivity | reflexivity |].
  rewrite Hscript. split; reflexivity.
Defined.

(** ** What the blank document keeps *)

Lemma narrow_keeps_page v x :
  page_width (narrow v x) = page_width x /\
  page_height (narrow v x) = page_height x.
Proof. split; reflexivity. Qed.

(** X7.  A run of [create_template] that returns has changed nothing of
    the sections but their margins: their number and the width and height
    of each page are those of the blank document. *)
Theorem page_size_is_kept E s u s' :
  create_template E s = (Ok u, s') ->
  page_width <$> sections (doc s') = page_width <$> sections (blank_document E) /\
  page_height <$> sections (doc s') = page_height <$> sections (blank_document E).
Proof.
  intros H. apply create_template_ok in H. subst s'.
  cbn [doc rendered sections].
  split; rewrite <- list_fmap_compose; apply list_fmap_ext; intros; reflexivity.
Qed.

Lemma page_size_is_kept_witness :
  page_width <$> sections (doc (snd (create_template calm fresh))) = [Some 7772400] /\
  page_height <$> sections (doc (snd (create_template calm fresh))) = [Some 10058400].
Proof.
  apply (page_size_is_kept calm fresh tt (snd (create_template calm fresh))).
  by_running.
Defined.

(** X8.  [create_template] only adds to the body.  When it returns, the
    paragraphs the blank document came with are still there, unchanged
    and first, and the three marker paragraphs follow them. *)
Theorem existing_paragraphs_are_kept E s u s' :
  create_template E s = (Ok u, s') ->
  let n := length (paragraphs (blank_document E)) in
  take n (paragraphs (doc s')) = paragraphs (blank_document E) /\
  paragraph_text <$> drop n (paragraphs (doc s')) =
    ["{% for page in pages %}"; "{{%img}}"; "{% endfor %}"] /\
  length (paragraphs (doc s')) = (n + 3)%nat.
Proof.
  intros H. apply create_template_ok in H. subst s'.
  cbn [doc rendered paragraphs]. cbv zeta.
  rewrite take_app_length, drop_app_length, length_app.
  repeat split.
Qed.

Lemma existing_paragraphs_are_kept_witness :
  paragraph_text <$> paragraphs (doc (snd (create_template with_letterhead fresh))) =
    ["ACME Scanning"; "{% for page in pages %}"; "{{%img}}"; "{% endfor %}"].
Proof.
  destruct (existing_paragraphs_are_kept with_letterhead fresh tt
              (snd (create_template with_letterhead fresh)))
    as (Htake & Hdrop & _); [by_running |].
  rewrite <- (take_drop 1 (paragraphs (doc (snd (create_template with_letterhead fresh))))).
  rewrite fmap_app. cbv zeta in Htake, Hdrop.
  change (length (paragraphs (blank_document with_letterhead))) with 1%nat in Htake, Hdrop.
  rewrite Htake, Hdrop. reflexivity.
Defined.
